(** * S.U.S.M.I AI Service: the request handlers of [apps/ai-service/main.py]

    A shallow embedding of the four handlers ([health_check], [chat],
    [analyze], [suggest]) and the properties the specification states
    about them.

    Conventions.
    - A Python [str] is a Rocq [string] holding its UTF-8 bytes; equality
      and concatenation agree with Python's on the encoded text.
    - [Optional[T]] is [option T]; a dict literal with string keys is an
      association list in the order the literal is written, except the
      [prompts] table of [analyze], which is only ever looked up and is a
      [gmap].
    - [float] is the IEEE binary64 type; the handlers never compute with
      it, they only pass it on.
    - The two provider SDKs are outside the repository.  A [World] carries
      the process environment and one oracle per SDK; a handler is a
      function of the world that returns the list of outbound calls it
      made together with its result or the exception it raised.
    - A handler turns to an SDK in three steps inside its [try]: the
      import, the construction of the client, the [create] call.  The
      oracle stands for the three together: its exception is the one any
      of them raises, and the call log records that the handler turned to
      that provider with these arguments.
    - pydantic is outside the repository too.  A reply field that pydantic
      refuses when the response model is built carries the
      [ValidationError] that pydantic raises for it. *)

From Stdlib Require Import ZArith Floats.PrimFloat.
From stdpp Require Import gmap strings list.

Open Scope Z_scope.
Open Scope string_scope.

(** ** Python values *)

(** A dict literal [{"k1": v1, "k2": v2}]. *)
Definition pydict (V : Type) : Type := list (string * V).

(** Truthiness of an [Optional[str]]: [None] and [""] are falsy. *)
Definition truthy (o : option string) : bool :=
  match o with
  | None => false
  | Some s => negb (String.eqb s "")
  end.

(** [x or d] for an [Optional[str]] [x]. *)
Definition or_str (x : option string) (d : string) : string :=
  if truthy x then default d x else d.

(** [x or d] for an [Optional[int]] [x]: [None] and [0] are falsy. *)
Definition or_int (x : option Z) (d : Z) : Z :=
  match x with
  | None => d
  | Some n => if Z.eqb n 0 then d else n
  end.

(** An exception object below [Exception]; [str e] is its message. *)
Record PyException := mkException { exc_class : string; exc_message : string }.

Definition str (e : PyException) : string := exc_message e.

(** [l[0]] *)
Definition index0 {A} (l : list A) : PyException + A :=
  match l with
  | x :: _ => inr x
  | [] => inl (mkException "IndexError" "list index out of range")
  end.

(** The body of a JSON request, for the untyped [context: dict] of [suggest]. *)
#[warnings="-register-all"]
Inductive json :=
| JNull
| JBool (b : bool)
| JNumber (n : Z)
| JString (s : string)
| JArray (items : list json)
| JObject (fields : list (string * json)).

(** ** Models (pydantic classes) *)

Module ChatMessage.
Record t := mk { role : string; content : string }.
End ChatMessage.

Module ChatRequest.
Record t := mk {
  messages : list ChatMessage.t;
  model : option string;          (* default "gpt-4" *)
  temperature : option float;     (* default 0.7 *)
  max_tokens : option Z;          (* default 1000 *)
  user_id : option string         (* default None *)
}.
End ChatRequest.

Module ChatResponse.
Record t := mk {
  content : string;
  model : string;
  usage : option (pydict Z)
}.
End ChatResponse.

Module AnalyzeRequest.
Record t := mk { text : string; task : string (* default "summarize" *) }.
End AnalyzeRequest.

Module AnalyzeResponse.
Record t := mk { result : string; task : string }.
End AnalyzeResponse.

Record HTTPException := mkHTTPException { status_code : Z; detail : string }.

(** ** The provider SDKs, as the handlers use them *)

Module OpenAI.
(** Keyword arguments of [client.chat.completions.create].  [max_tokens]
    is [None] when the keyword is not given and [Some v] when it is
    given the value [v] (which may itself be Python's [None]). *)
Record create_args := mk_args {
  model : string;
  messages : list (pydict string);
  temperature : option float;
  max_tokens : option (option Z)
}.

Record CompletionUsage := mk_usage {
  prompt_tokens : Z;
  completion_tokens : Z;
  total_tokens : Z
}.

(** [choices[i].message.content], an [Optional[str]]: a text, or [None].
    The handlers hand it to a [str] field of their response model;
    [validation_error] is the [ValidationError] pydantic raises when that
    field is given [None]. *)
Inductive Content :=
| Text (s : string)
| Null (validation_error : PyException).

Record ChatCompletion := mk_completion {
  choices : list Content;          (* choices[i].message.content *)
  response_model : string;         (* response.model *)
  usage : option CompletionUsage   (* response.usage, an Optional *)
}.
End OpenAI.

Module Anthropic.
(** Keyword arguments of [client.messages.create]. *)
Record create_args := mk_args {
  model : string;
  max_tokens : Z;
  system : string;
  messages : list (pydict string)
}.

Record Usage := mk_usage { input_tokens : Z; output_tokens : Z }.

Record Message := mk_message {
  content : list string;   (* content[i].text *)
  response_model : string; (* response.model *)
  usage : Usage
}.
End Anthropic.

(** One outbound call: the client is built with [api_key] and its create
    method is called once with the given arguments.  The entry is logged
    when the handler turns to the SDK; the oracle's answer covers the
    import, the construction of the client and the call itself. *)
Inductive Call :=
| OpenAICall (api_key : option string) (args : OpenAI.create_args)
| AnthropicCall (api_key : option string) (args : Anthropic.create_args).

Record World := mkWorld {
  environ : gmap string string;
  openai_create :
    option string -> OpenAI.create_args -> PyException + OpenAI.ChatCompletion;
  anthropic_create :
    option string -> Anthropic.create_args -> PyException + Anthropic.Message
}.

(** ** Handler computations *)

(** A computation that may raise an [E]: from the world to the outbound
    calls made, in order, and the exception raised or the value returned. *)
Definition Py (E A : Type) : Type := World -> list Call * (E + A).

Definition calls {E A} (r : list Call * (E + A)) : list Call := fst r.
Definition outcome {E A} (r : list Call * (E + A)) : E + A := snd r.

Definition py_ret {E A} (a : A) : Py E A := fun _ => ([], inr a).

Definition py_bind {E A B} (k : A -> Py E B) (m : Py E A) : Py E B :=
  fun w =>
    match m w with
    | (t, inl e) => (t, inl e)
    | (t, inr a) => let '(t', r) := k a w in ((t ++ t')%list, r)
    end.

#[export] Instance Py_ret {E} : MRet (Py E) := @py_ret E.
#[export] Instance Py_bind {E} : MBind (Py E) := @py_bind E.

Definition raise {E A} (e : E) : Py E A := fun _ => ([], inl e).

(** [try: body / except Exception as e: handler e] *)
Definition try_except {E E' A} (body : Py E A) (handler : E -> Py E' A) : Py E' A :=
  fun w =>
    match body w with
    | (t, inr a) => (t, inr a)
    | (t, inl e) => let '(t', r) := handler e w in ((t ++ t')%list, r)
    end.

(** Lift a pure partial operation. *)
Definition lift {E A} (r : E + A) : Py E A := fun _ => ([], r).

(** [os.getenv(name)] *)
Definition getenv {E} (name : string) : Py E (option string) :=
  fun w => ([], inr (environ w !! name)).

(** [OpenAI(api_key=key).chat.completions.create] with the keyword arguments [args] *)
Definition openai_chat_completions_create
    (key : option string) (args : OpenAI.create_args)
  : Py PyException OpenAI.ChatCompletion :=
  fun w => ([OpenAICall key args], openai_create w key args).

(** [anthropic.Anthropic(api_key=key).messages.create] with the keyword arguments [args] *)
Definition anthropic_messages_create
    (key : option string) (args : Anthropic.create_args)
  : Py PyException Anthropic.Message :=
  fun w => ([AnthropicCall key args], anthropic_create w key args).

(** [response.usage.prompt_tokens], the first attribute read of
    [response.usage], which may be [None]. *)
Definition usage_counts (usage : option OpenAI.CompletionUsage)
  : PyException + OpenAI.CompletionUsage :=
  match usage with
  | Some u => inr u
  | None =>
      inl (mkException "AttributeError"
             "'NoneType' object has no attribute 'prompt_tokens'")
  end.

(** pydantic's check of a value given to a [str] field of a response
    model. *)
Definition validate_str (v : OpenAI.Content) : PyException + string :=
  match v with
  | OpenAI.Text s => inr s
  | OpenAI.Null validation_error => inl validation_error
  end.

(** ** [GET /health] *)

Definition health_check : Py HTTPException (pydict string) :=
  mret [("status", "ok");
        ("service", "S.U.S.M.I AI Service");
        ("version", "1.0.0")].

(** ** [POST /chat] *)

(** [{"role": m.role, "content": m.content}] *)
Definition message_dict (m : ChatMessage.t) : pydict string :=
  [("role", ChatMessage.role m); ("content", ChatMessage.content m)].

Definition chat_fallback_content : string :=
  "🔧 O serviço de IA precisa ser configurado. Por favor, adicione sua chave de API (OpenAI ou Anthropic) no arquivo .env para habilitar respostas inteligentes.".

Definition system_prompt : pydict string :=
  [("role", "system");
   ("content", "Você é o S.U.S.M.I, um assistente inteligente pessoal inspirado no JARVIS.
Você é educado, eficiente e prestativo. Você ajuda o usuário com:
- Gerenciamento de tarefas e agenda
- Resposta a perguntas
- Automação de atividades
- Análise de informações

Responda sempre em português brasileiro, de forma clara e concisa.")].

Definition anthropic_system : string :=
  "Você é o S.U.S.M.I, um assistente inteligente pessoal inspirado no JARVIS.
Você é educado, eficiente e prestativo. Responda sempre em português brasileiro.".

(** The body of the [try] block of [chat].  The last [else] is the
    function falling off its end, which returns [None]. *)
Definition chat_body (request : ChatRequest.t)
  : Py PyException (option ChatResponse.t) :=
  openai_key ← getenv "OPENAI_API_KEY";
  anthropic_key ← getenv "ANTHROPIC_API_KEY";
  if negb (truthy openai_key) && negb (truthy anthropic_key) then
    mret (Some {| ChatResponse.content := chat_fallback_content;
                  ChatResponse.model := "fallback";
                  ChatResponse.usage := None |})
  else if truthy openai_key then
    let messages := message_dict <$> ChatRequest.messages request in
    let messages := system_prompt :: messages in
    response ← openai_chat_completions_create openai_key
      {| OpenAI.model := or_str (ChatRequest.model request) "gpt-4";
         OpenAI.messages := messages;
         OpenAI.temperature := ChatRequest.temperature request;
         OpenAI.max_tokens := Some (ChatRequest.max_tokens request) |};
    first ← lift (index0 (OpenAI.choices response));
    usage ← lift (usage_counts (OpenAI.usage response));
    content ← lift (validate_str first);
    mret (Some {|
      ChatResponse.content := content;
      ChatResponse.model := OpenAI.response_model response;
      ChatResponse.usage := Some
        [("prompt_tokens", OpenAI.prompt_tokens usage);
         ("completion_tokens", OpenAI.completion_tokens usage);
         ("total_tokens", OpenAI.total_tokens usage)] |})
  else if truthy anthropic_key then
    let messages :=
      message_dict <$>
        filter (λ m, ChatMessage.role m ≠ "system") (ChatRequest.messages request) in
    response ← anthropic_messages_create anthropic_key
      {| Anthropic.model := "claude-3-sonnet-20240229";
         Anthropic.max_tokens := or_int (ChatRequest.max_tokens request) 1000;
         Anthropic.system := anthropic_system;
         Anthropic.messages := messages |};
    content ← lift (index0 (Anthropic.content response));
    mret (Some {|
      ChatResponse.content := content;
      ChatResponse.model := Anthropic.response_model response;
      ChatResponse.usage := Some
        [("input_tokens", Anthropic.input_tokens (Anthropic.usage response));
         ("output_tokens", Anthropic.output_tokens (Anthropic.usage response))] |})
  else mret None.

(** [except Exception as e: raise HTTPException(status_code=500, detail=str(e))] *)
Definition to_http_500 {A} (e : PyException) : Py HTTPException A :=
  raise (mkHTTPException 500 (str e)).

Definition chat (request : ChatRequest.t)
  : Py HTTPException (option ChatResponse.t) :=
  try_except (chat_body request) to_http_500.

(** ** [POST /analyze] *)

Definition analyze_unconfigured_result : string :=
  "Configure a chave de API para usar análise de texto.".

Definition prompts (text : string) : gmap string string :=
  {[ "summarize" := "Resuma o seguinte texto de forma concisa:

" +:+ text;
     "extract" := "Extraia as informações principais do seguinte texto:

" +:+ text;
     "classify" := "Classifique o seguinte texto por categoria e sentimento:

" +:+ text ]}.

(** [d[k]] on a dict with string keys *)
Definition getitem (d : gmap string string) (k : string) : PyException + string :=
  match d !! k with
  | Some v => inr v
  | None => inl (mkException "KeyError" ("'" +:+ k +:+ "'"))
  end.

(** [d.get(k, dflt)] *)
Definition dict_get (d : gmap string string) (k : string) (dflt : string) : string :=
  default dflt (d !! k).

(** The literal [0.3]: the binary64 value nearest to three tenths. *)
Definition temperature_0_3 : float := 0x1.3333333333333p-2%float.

Definition analyze_body (request : AnalyzeRequest.t)
  : Py PyException AnalyzeResponse.t :=
  openai_key ← getenv "OPENAI_API_KEY";
  if negb (truthy openai_key) then
    mret {| AnalyzeResponse.result := analyze_unconfigured_result;
            AnalyzeResponse.task := AnalyzeRequest.task request |}
  else
    let prompts := prompts (AnalyzeRequest.text request) in
    dflt ← lift (getitem prompts "summarize");
    response ← openai_chat_completions_create openai_key
      {| OpenAI.model := "gpt-4";
         OpenAI.messages :=
           [ [("role", "system");
              ("content", "Você é um assistente de análise de texto.")];
             [("role", "user");
              ("content", dict_get prompts (AnalyzeRequest.task request) dflt)] ];
         OpenAI.temperature := Some temperature_0_3;
         OpenAI.max_tokens := None |};
    first ← lift (index0 (OpenAI.choices response));
    content ← lift (validate_str first);
    mret {| AnalyzeResponse.result := content;
            AnalyzeResponse.task := AnalyzeRequest.task request |}.

Definition analyze (request : AnalyzeRequest.t)
  : Py HTTPException AnalyzeResponse.t :=
  try_except (analyze_body request) to_http_500.

(** ** [POST /suggest] *)

Definition suggest (context : list (string * json))
  : Py HTTPException (pydict (list string)) :=
  mret [("suggestions",
         ["Você tem 3 tarefas pendentes para hoje";
          "Considere agendar uma pausa às 15h";
          "Seu relatório mensal está pendente"])].

(** * Properties *)

(** ** Vocabulary of the specification *)

Abbreviation OPENAI_API_KEY := "OPENAI_API_KEY" (only parsing).
Abbreviation ANTHROPIC_API_KEY := "ANTHROPIC_API_KEY" (only parsing).

(** The provider paths of section 4.1 of the specification. *)
Inductive Provider := Fallback | Primary | Secondary.

(** The selection policy in the specification's words: nothing configured
    gives the fallback, the primary credential wins when present, the
    secondary is used otherwise. *)
Definition select_provider (primary_present secondary_present : bool) : Provider :=
  if negb primary_present && negb secondary_present then Fallback
  else if primary_present then Primary
  else Secondary.

(** The path a handler took, read off the outbound calls it made. *)
Definition provider_called (t : list Call) : option Provider :=
  match t with
  | [] => Some Fallback
  | [OpenAICall _ _] => Some Primary
  | [AnthropicCall _ _] => Some Secondary
  | _ => None
  end.

(** The outbound call [c] raised [e] in world [w]. *)
Definition call_raises (w : World) (c : Call) (e : PyException) : Prop :=
  match c with
  | OpenAICall k a => openai_create w k a = inl e
  | AnthropicCall k a => anthropic_create w k a = inl e
  end.

(** The summarize template of [analyze], as a function of the text. *)
Definition summarize_prompt (text : string) : string :=
  "Resuma o seguinte texto de forma concisa:

" +:+ text.

(** The reading of "the call uses the request's values" on the primary
    path: the one call made carries the persona followed by the caller's
    messages, and the request's own [model], [temperature] and
    [max_tokens]. *)
Definition primary_call_uses_request_values
    (w : World) (request : ChatRequest.t) : Prop :=
  ∃ args,
    calls (chat request w) = [OpenAICall (environ w !! OPENAI_API_KEY) args] ∧
    OpenAI.messages args =
      system_prompt :: (message_dict <$> ChatRequest.messages request) ∧
    Some (OpenAI.model args) = ChatRequest.model request ∧
    OpenAI.temperature args = ChatRequest.temperature request ∧
    OpenAI.max_tokens args = Some (ChatRequest.max_tokens request).

(** ** Concrete worlds and requests *)

Module Examples.
Definition completion : OpenAI.ChatCompletion :=
  {| OpenAI.choices := [OpenAI.Text "Olá! Como posso ajudar?"];
     OpenAI.response_model := "gpt-4-0613";
     OpenAI.usage := Some (OpenAI.mk_usage 12 7 19) |}.

Definition message : Anthropic.Message :=
  {| Anthropic.content := ["Olá! Como posso ajudar?"];
     Anthropic.response_model := "claude-3-sonnet-20240229";
     Anthropic.usage := Anthropic.mk_usage 12 7 |}.

Definition connection_error : PyException :=
  mkException "APIConnectionError" "Connection error.".

(** Both providers answer. *)
Definition world (env : gmap string string) : World :=
  {| environ := env;
     openai_create := λ _ _, inr completion;
     anthropic_create := λ _ _, inr message |}.

(** Both providers are unreachable. *)
Definition offline (env : gmap string string) : World :=
  {| environ := env;
     openai_create := λ _ _, inl connection_error;
     anthropic_create := λ _ _, inl connection_error |}.

Definition no_keys : gmap string string := ∅.
Definition openai_only : gmap string string :=
  {[ OPENAI_API_KEY := "sk-test" ]}.
Definition anthropic_only : gmap string string :=
  {[ ANTHROPIC_API_KEY := "sk-ant-test" ]}.
Definition both_keys : gmap string string :=
  {[ OPENAI_API_KEY := "sk-test"; ANTHROPIC_API_KEY := "sk-ant-test" ]}.
Definition empty_keys : gmap string string :=
  {[ OPENAI_API_KEY := ""; ANTHROPIC_API_KEY := "" ]}.

(** The binary64 value nearest to 0.7, the default temperature. *)
Definition temperature_0_7 : float := 0x1.6666666666666p-1%float.

Definition request_of (msgs : list ChatMessage.t) (model : option string)
  : ChatRequest.t :=
  {| ChatRequest.messages := msgs;
     ChatRequest.model := model;
     ChatRequest.temperature := Some temperature_0_7;
     ChatRequest.max_tokens := Some 1000;
     ChatRequest.user_id := None |}.

Definition hi : ChatRequest.t :=
  request_of [ChatMessage.mk "user" "Hi"] (Some "gpt-4").

Definition hi_empty_model : ChatRequest.t :=
  request_of [ChatMessage.mk "user" "Hi"] (Some "").

Definition with_roles : ChatRequest.t :=
  request_of [ChatMessage.mk "system" "Be brief.";
              ChatMessage.mk "System" "Be formal.";
              ChatMessage.mk "user" "Hi";
              ChatMessage.mk "tool" "42"] (Some "gpt-4").

Definition unknown_task : AnalyzeRequest.t :=
  AnalyzeRequest.mk "long text" "unknown".

(** The call [chat] makes for [hi] when the primary key is "sk-test". *)
Definition hi_openai_call : Call :=
  OpenAICall (Some "sk-test")
    {| OpenAI.model := "gpt-4";
       OpenAI.messages := [system_prompt; [("role", "user"); ("content", "Hi")]];
       OpenAI.temperature := Some temperature_0_7;
       OpenAI.max_tokens := Some (Some 1000) |}.

(** The call [analyze] makes for [unknown_task] with the same key. *)
Definition unknown_task_call : Call :=
  OpenAICall (Some "sk-test")
    {| OpenAI.model := "gpt-4";
       OpenAI.messages :=
         [ [("role", "system");
            ("content", "Você é um assistente de análise de texto.")];
           [("role", "user"); ("content", summarize_prompt "long text")] ];
       OpenAI.temperature := Some temperature_0_3;
       OpenAI.max_tokens := None |}.
End Examples.

(** ** Vocabulary for the response shaping and the edge cases *)

(** The outbound call [c] returned, in world [w], a reply with nothing to
    index: no choice (primary provider) or no content block (secondary). *)
Definition call_returns_empty (w : World) (c : Call) : Prop :=
  match c with
  | OpenAICall k a =>
      ∃ reply, openai_create w k a = inr reply ∧ OpenAI.choices reply = []
  | AnthropicCall k a =>
      ∃ reply, anthropic_create w k a = inr reply ∧ Anthropic.content reply = []
  end.

(** The request with its [user_id] replaced. *)
Definition with_user_id (uid : option string) (request : ChatRequest.t)
  : ChatRequest.t :=
  {| ChatRequest.messages := ChatRequest.messages request;
     ChatRequest.model := ChatRequest.model request;
     ChatRequest.temperature := ChatRequest.temperature request;
     ChatRequest.max_tokens := ChatRequest.max_tokens request;
     ChatRequest.user_id := uid |}.

Module Edge.
(** A completion with two choices whose reported total is not the sum of
    the two other counts. *)
Definition two_choices : OpenAI.ChatCompletion :=
  {| OpenAI.choices := [OpenAI.Text "first"; OpenAI.Text "second"];
     OpenAI.response_model := "gpt-4-0613";
     OpenAI.usage := Some (OpenAI.mk_usage 12 7 25) |}.

Definition two_blocks : Anthropic.Message :=
  {| Anthropic.content := ["first"; "second"];
     Anthropic.response_model := "claude-3-sonnet-20240229-v1";
     Anthropic.usage := Anthropic.mk_usage 12 7 |}.

Definition no_choice : OpenAI.ChatCompletion :=
  {| OpenAI.choices := [];
     OpenAI.response_model := "gpt-4-0613";
     OpenAI.usage := Some (OpenAI.mk_usage 12 0 12) |}.

Definition no_block : Anthropic.Message :=
  {| Anthropic.content := [];
     Anthropic.response_model := "claude-3-sonnet-20240229";
     Anthropic.usage := Anthropic.mk_usage 12 0 |}.

(** A completion that reports no usage. *)
Definition no_usage : OpenAI.ChatCompletion :=
  {| OpenAI.choices := [OpenAI.Text "first"];
     OpenAI.response_model := "gpt-4-0613";
     OpenAI.usage := None |}.



(** The primary provider answers every call with [reply]. *)
Definition replying (reply : OpenAI.ChatCompletion) (env : gmap string string)
  : World :=
  {| environ := env;
     openai_create := λ _ _, inr reply;
     anthropic_create := λ _ _, inl Examples.connection_error |}.

(** Both providers answer with several choices or blocks. *)
Definition talkative (env : gmap string string) : World :=
  {| environ := env;
     openai_create := λ _ _, inr two_choices;
     anthropic_create := λ _ _, inr two_blocks |}.

(** Both providers answer with an empty reply. *)
Definition silent (env : gmap string string) : World :=
  {| environ := env;
     openai_create := λ _ _, inr no_choice;
     anthropic_create := λ _ _, inr no_block |}.

(** The primary provider answers, the secondary is unreachable. *)
Definition primary_up (env : gmap string string) : World :=
  {| environ := env;
     openai_create := λ _ _, inr Examples.completion;
     anthropic_create := λ _ _, inl Examples.connection_error |}.

Definition with_home : gmap string string :=
  {[ OPENAI_API_KEY := "sk-test"; "HOME" := "/root" ]}.

(** The primary key is set but empty, the secondary key is valid. *)
Definition empty_primary : gmap string string :=
  {[ OPENAI_API_KEY := ""; ANTHROPIC_API_KEY := "sk-ant-test" ]}.

Definition only_system : ChatRequest.t :=
  Examples.request_of [ChatMessage.mk "system" "Be brief.";
                       ChatMessage.mk "system" "Be formal."] (Some "gpt-4").

(** [Examples.hi] with another model, no temperature and a user id. *)
Definition hi_other_params : ChatRequest.t :=
  {| ChatRequest.messages := [ChatMessage.mk "user" "Hi"];
     ChatRequest.model := Some "gpt-3.5-turbo";
     ChatRequest.temperature := None;
     ChatRequest.max_tokens := Some 1000;
     ChatRequest.user_id := Some "u-17" |}.

Definition zero_max_tokens : ChatRequest.t :=
  {| ChatRequest.messages := [ChatMessage.mk "user" "Hi"];
     ChatRequest.model := Some "gpt-4";
     ChatRequest.temperature := Some Examples.temperature_0_7;
     ChatRequest.max_tokens := Some 0;
     ChatRequest.user_id := None |}.

(** The call [chat] makes for [Examples.hi] when only the secondary key
    "sk-ant-test" is set. *)
Definition hi_anthropic_call : Call :=
  AnthropicCall (Some "sk-ant-test")
    {| Anthropic.model := "claude-3-sonnet-20240229";
       Anthropic.max_tokens := 1000;
       Anthropic.system := anthropic_system;
       Anthropic.messages := [ [("role", "user"); ("content", "Hi")] ] |}.
End Edge.

(** ** Unfolding the handlers along each path *)

Ltac run_handler :=
  unfold chat, chat_body, analyze, analyze_body, suggest, health_check,
    try_except, to_http_500, raise, lift, getenv,
    openai_chat_completions_create, anthropic_messages_create,
    mbind, mret, Py_bind, Py_ret, py_bind, py_ret;
  cbn beta iota.

Lemma chat_fallback_path (w : World) (request : ChatRequest.t) :
  truthy (environ w !! OPENAI_API_KEY) = false ->
  truthy (environ w !! ANTHROPIC_API_KEY) = false ->
  chat request w =
    ([], inr (Some {| ChatResponse.content := chat_fallback_content;
                      ChatResponse.model := "fallback";
                      ChatResponse.usage := None |})).
Proof.
  intros Ho Ha. run_handler. by rewrite Ho, Ha.
Qed.

Lemma chat_primary_path (w : World) (request : ChatRequest.t) :
  truthy (environ w !! OPENAI_API_KEY) = true ->
  let key := environ w !! OPENAI_API_KEY in
  let args :=
    {| OpenAI.model := or_str (ChatRequest.model request) "gpt-4";
       OpenAI.messages :=
         system_prompt :: (message_dict <$> ChatRequest.messages request);
       OpenAI.temperature := ChatRequest.temperature request;
       OpenAI.max_tokens := Some (ChatRequest.max_tokens request) |} in
  chat request w =
    ([OpenAICall key args],
     match openai_create w key args with
     | inl e => inl (mkHTTPException 500 (str e))
     | inr response =>
         match index0 (OpenAI.choices response) with
         | inl e => inl (mkHTTPException 500 (str e))
         | inr first =>
             match usage_counts (OpenAI.usage response) with
             | inl e => inl (mkHTTPException 500 (str e))
             | inr usage =>
                 match validate_str first with
                 | inl e => inl (mkHTTPException 500 (str e))
                 | inr content =>
                     inr (Some {|
                       ChatResponse.content := content;
                       ChatResponse.model := OpenAI.response_model response;
                       ChatResponse.usage := Some
                         [("prompt_tokens", OpenAI.prompt_tokens usage);
                          ("completion_tokens", OpenAI.completion_tokens usage);
                          ("total_tokens", OpenAI.total_tokens usage)] |})
                 end
             end
         end
     end).
Proof.
  intros Ho key args. run_handler. rewrite Ho. cbn.
  fold key. fold args.
  destruct (openai_create w key args) as [e|response]; [done|].
  cbn. destruct (index0 (OpenAI.choices response)) as [e|first]; [done|].
  cbn. destruct (usage_counts (OpenAI.usage response)) as [e|usage]; [done|].
  cbn. by destruct (validate_str first).
Qed.

Lemma chat_secondary_path (w : World) (request : ChatRequest.t) :
  truthy (environ w !! OPENAI_API_KEY) = false ->
  truthy (environ w !! ANTHROPIC_API_KEY) = true ->
  let key := environ w !! ANTHROPIC_API_KEY in
  let args :=
    {| Anthropic.model := "claude-3-sonnet-20240229";
       Anthropic.max_tokens := or_int (ChatRequest.max_tokens request) 1000;
       Anthropic.system := anthropic_system;
       Anthropic.messages :=
         message_dict <$>
           filter (λ m, ChatMessage.role m ≠ "system")
                  (ChatRequest.messages request) |} in
  chat request w =
    ([AnthropicCall key args],
     match anthropic_create w key args with
     | inl e => inl (mkHTTPException 500 (str e))
     | inr response =>
         match index0 (Anthropic.content response) with
         | inl e => inl (mkHTTPException 500 (str e))
         | inr content =>
             inr (Some {|
               ChatResponse.content := content;
               ChatResponse.model := Anthropic.response_model response;
               ChatResponse.usage := Some
                 [("input_tokens", Anthropic.input_tokens (Anthropic.usage response));
                  ("output_tokens",
                   Anthropic.output_tokens (Anthropic.usage response))] |})
         end
     end).
Proof.
  intros Ho Ha key args. run_handler. rewrite Ho, Ha. cbn.
  fold key. fold args.
  destruct (anthropic_create w key args) as [e|response]; [done|].
  cbn. by destruct (index0 (Anthropic.content response)).
Qed.

Lemma prompts_summarize (text : string) :
  prompts text !! "summarize" = Some (summarize_prompt text).
Proof. unfold prompts. by rewrite lookup_insert_eq. Qed.

Lemma prompts_unknown (text task : string) :
  task ≠ "summarize" -> task ≠ "extract" -> task ≠ "classify" ->
  prompts text !! task = None.
Proof.
  intros Hs He Hc. unfold prompts.
  rewrite !lookup_insert_ne by done. by rewrite lookup_singleton_ne.
Qed.

Lemma analyze_unconfigured_path (w : World) (request : AnalyzeRequest.t) :
  truthy (environ w !! OPENAI_API_KEY) = false ->
  analyze request w =
    ([], inr {| AnalyzeResponse.result := analyze_unconfigured_result;
                AnalyzeResponse.task := AnalyzeRequest.task request |}).
Proof. intros Ho. run_handler. by rewrite Ho. Qed.

Lemma analyze_primary_path (w : World) (request : AnalyzeRequest.t) :
  truthy (environ w !! OPENAI_API_KEY) = true ->
  let key := environ w !! OPENAI_API_KEY in
  let text := AnalyzeRequest.text request in
  let args :=
    {| OpenAI.model := "gpt-4";
       OpenAI.messages :=
         [ [("role", "system");
            ("content", "Você é um assistente de análise de texto.")];
           [("role", "user");
            ("content",
             dict_get (prompts text) (AnalyzeRequest.task request)
                      (summarize_prompt text))] ];
       OpenAI.temperature := Some temperature_0_3;
       OpenAI.max_tokens := None |} in
  analyze request w =
    ([OpenAICall key args],
     match openai_create w key args with
     | inl e => inl (mkHTTPException 500 (str e))
     | inr response =>
         match index0 (OpenAI.choices response) with
         | inl e => inl (mkHTTPException 500 (str e))
         | inr first =>
             match validate_str first with
             | inl e => inl (mkHTTPException 500 (str e))
             | inr content =>
                 inr {| AnalyzeResponse.result := content;
                        AnalyzeResponse.task := AnalyzeRequest.task request |}
             end
         end
     end).
Proof.
  intros Ho key text args. run_handler. rewrite Ho. cbn.
  unfold getitem. rewrite prompts_summarize. cbn.
  fold key. fold text. fold args.
  destruct (openai_create w key args) as [e|response]; [done|].
  cbn. destruct (index0 (OpenAI.choices response)) as [e|first]; [done|].
  cbn. by destruct (validate_str first).
Qed.


#[export] Instance message_dict_inj : Inj (=) (=) message_dict.
Proof. intros [r c] [r' c'] H. unfold message_dict in H. by simplify_eq/=. Qed.

Lemma message_dict_role (m : ChatMessage.t) (r : string) :
  ("role", r) ∈ message_dict m ↔ ChatMessage.role m = r.
Proof.
  unfold message_dict. rewrite !elem_of_cons, elem_of_nil.
  split; [|intros ->; by left].
  intros [H|[H|[]]]; by simplify_eq.
Qed.

(** Every run of [chat] makes at most one outbound call and never falls
    off the end of the function. *)
Lemma chat_never_returns_None (w : World) (request : ChatRequest.t) :
  outcome (chat request w) ≠ inr None.
Proof.
  destruct (truthy (environ w !! OPENAI_API_KEY)) eqn:Ho.
  - rewrite (chat_primary_path w request Ho). cbn.
    destruct (openai_create _ _ _) as [e|r]; [done|].
    destruct (index0 _) as [e|first]; [done|].
    destruct (usage_counts _) as [e|usage]; [done|].
    by destruct (validate_str _).
  - destruct (truthy (environ w !! ANTHROPIC_API_KEY)) eqn:Ha.
    + rewrite (chat_secondary_path w request Ho Ha). cbn.
      destruct (anthropic_create _ _ _) as [e|r]; [done|].
      by destruct (index0 _).
    + by rewrite (chat_fallback_path w request Ho Ha).
Qed.

(** ** The chat endpoint without credentials *)

(** C1.  For every chat request, when neither provider credential is
    configured, [chat] returns normally (no [HTTPException]) a
    [ChatResponse] whose content is the fixed Portuguese fallback text,
    whose model is the literal "fallback" and whose usage is [None]; it
    makes no outbound call.  The request is arbitrary, so the result does
    not depend on its messages, model, temperature or max_tokens. *)
Theorem chat_without_credentials_is_fallback
    (w : World) (request : ChatRequest.t) :
  truthy (environ w !! OPENAI_API_KEY) = false ->
  truthy (environ w !! ANTHROPIC_API_KEY) = false ->
  ∃ response,
    chat request w = ([], inr (Some response)) ∧
    ChatResponse.content response = chat_fallback_content ∧
    ChatResponse.model response = "fallback" ∧
    ChatResponse.usage response = None.
Proof.
  intros Ho Ha. eexists. split; [by apply chat_fallback_path|]. done.
Qed.

Lemma chat_without_credentials_is_fallback_witness :
  truthy (environ (Examples.world Examples.no_keys) !! OPENAI_API_KEY) = false ∧
  truthy (environ (Examples.world Examples.no_keys) !! ANTHROPIC_API_KEY) = false ∧
  ∃ response,
    chat Examples.hi (Examples.world Examples.no_keys) = ([], inr (Some response)) ∧
    ChatResponse.content response = chat_fallback_content ∧
    ChatResponse.model response = "fallback" ∧
    ChatResponse.usage response = None.
Proof.
  split; [reflexivity|]. split; [reflexivity|].
  apply (chat_without_credentials_is_fallback
           (Examples.world Examples.no_keys) Examples.hi); reflexivity.
Defined.

(** ** Provider selection *)

(** C2.  The provider [chat] calls is [select_provider] of the truthiness
    of the two credentials, for every request and every behaviour of the
    providers: with the primary credential present the one call made is
    to the primary provider, whatever the secondary credential and the
    messages are, and the secondary provider is called exactly when the
    primary credential is absent and the secondary one present. *)
Theorem chat_provider_selection (w : World) (request : ChatRequest.t) :
  provider_called (calls (chat request w)) =
    Some (select_provider (truthy (environ w !! OPENAI_API_KEY))
                          (truthy (environ w !! ANTHROPIC_API_KEY))) ∧
  (truthy (environ w !! OPENAI_API_KEY) = true ->
   ∃ args, calls (chat request w) =
             [OpenAICall (environ w !! OPENAI_API_KEY) args]) ∧
  ((∃ key args, AnthropicCall key args ∈ calls (chat request w)) ↔
   truthy (environ w !! OPENAI_API_KEY) = false ∧
   truthy (environ w !! ANTHROPIC_API_KEY) = true).
Proof.
  destruct (truthy (environ w !! OPENAI_API_KEY)) eqn:Ho.
  - rewrite (chat_primary_path w request Ho). cbn.
    split_and!; [done|eauto|].
    split; [|by intros [? _]].
    intros (key & args & Hin). apply list_elem_of_singleton in Hin. done.
  - destruct (truthy (environ w !! ANTHROPIC_API_KEY)) eqn:Ha.
    + rewrite (chat_secondary_path w request Ho Ha). cbn.
      split_and!; [done|done|].
      split; [done|]. intros _. do 2 eexists. by apply list_elem_of_singleton.
    + rewrite (chat_fallback_path w request Ho Ha). cbn.
      split_and!; [done|done|].
      split; [|by intros [_ ?]].
      intros (key & args & Hin). by apply elem_of_nil in Hin.
Qed.

(** ** The analyze endpoint without the primary credential *)

(** C5.  For every analyze request, when the primary credential is absent
    [analyze] returns at once the configuration-needed text (which is not
    the chat fallback text) with the request's task echoed, and makes no
    outbound call: in particular none to the secondary provider, whatever
    the secondary credential is. *)
Theorem analyze_without_primary_credential
    (w : World) (request : AnalyzeRequest.t) :
  truthy (environ w !! OPENAI_API_KEY) = false ->
  analyze request w =
    ([], inr {| AnalyzeResponse.result := analyze_unconfigured_result;
                AnalyzeResponse.task := AnalyzeRequest.task request |}) ∧
  analyze_unconfigured_result ≠ chat_fallback_content ∧
  (∀ key args, AnthropicCall key args ∉ calls (analyze request w)).
Proof.
  intros Ho. rewrite (analyze_unconfigured_path w request Ho).
  split_and!; [done|done|]. intros key args Hin. by apply elem_of_nil in Hin.
Qed.

Lemma analyze_without_primary_credential_witness :
  truthy (environ (Examples.world Examples.anthropic_only) !! ANTHROPIC_API_KEY)
    = true ∧
  truthy (environ (Examples.world Examples.anthropic_only) !! OPENAI_API_KEY)
    = false ∧
  analyze Examples.unknown_task (Examples.world Examples.anthropic_only) =
    ([], inr {| AnalyzeResponse.result := analyze_unconfigured_result;
                AnalyzeResponse.task := "unknown" |}).
Proof.
  split; [reflexivity|]. split; [reflexivity|].
  apply (analyze_without_primary_credential
           (Examples.world Examples.anthropic_only) Examples.unknown_task).
  reflexivity.
Defined.

(** ** The suggest endpoint *)

(** C8.  [suggest] is a constant function: any two payloads, in any two
    worlds, give the same result; it returns normally, without an
    outbound call, the three fixed suggestions in their fixed order. *)
Theorem suggest_is_constant
    (context context' : list (string * json)) (w w' : World) :
  suggest context w = suggest context' w' ∧
  ∃ suggestions,
    suggest context w = ([], inr [("suggestions", suggestions)]) ∧
    length suggestions = 3%nat ∧
    suggestions = ["Você tem 3 tarefas pendentes para hoje";
                   "Considere agendar uma pausa às 15h";
                   "Seu relatório mensal está pendente"].
Proof. split; [done|]. eexists. by split_and!. Qed.

(** ** The secondary-provider path of chat *)

(** C3.  For every chat request on the secondary path (primary credential
    absent, secondary present) the one outbound call forwards the caller's
    messages with exactly those of role "system" removed, so no forwarded
    message has that role; it passes the persona as the separate [system]
    argument, the fixed model identifier whatever the request's model is,
    and [max_tokens] 1000 when the request leaves it unset (the request's
    own value when that is not zero).  When the provider answers with at
    least one content block, the handler returns a response whose usage
    is the provider's [input_tokens] and [output_tokens] under those
    names and nothing else; and every response that is returned has that
    usage. *)
Theorem chat_secondary_call (w : World) (request : ChatRequest.t) :
  truthy (environ w !! OPENAI_API_KEY) = false ->
  truthy (environ w !! ANTHROPIC_API_KEY) = true ->
  ∃ args,
    calls (chat request w) =
      [AnthropicCall (environ w !! ANTHROPIC_API_KEY) args] ∧
    Anthropic.messages args =
      message_dict <$>
        filter (λ m, ChatMessage.role m ≠ "system") (ChatRequest.messages request) ∧
    (∀ d, d ∈ Anthropic.messages args -> ("role", "system") ∉ d) ∧
    Anthropic.system args = anthropic_system ∧
    Anthropic.model args = "claude-3-sonnet-20240229" ∧
    (ChatRequest.max_tokens request = None -> Anthropic.max_tokens args = 1000) ∧
    (∀ n, ChatRequest.max_tokens request = Some n -> n ≠ 0 ->
          Anthropic.max_tokens args = n) ∧
    (∀ response,
       outcome (chat request w) = inr (Some response) ->
       ∃ reply,
         anthropic_create w (environ w !! ANTHROPIC_API_KEY) args = inr reply ∧
         ChatResponse.usage response =
           Some [("input_tokens", Anthropic.input_tokens (Anthropic.usage reply));
                 ("output_tokens", Anthropic.output_tokens (Anthropic.usage reply))]) ∧
    (∀ reply first rest,
       anthropic_create w (environ w !! ANTHROPIC_API_KEY) args = inr reply ->
       Anthropic.content reply = first :: rest ->
       outcome (chat request w) =
         inr (Some {|
           ChatResponse.content := first;
           ChatResponse.model := Anthropic.response_model reply;
           ChatResponse.usage := Some
             [("input_tokens", Anthropic.input_tokens (Anthropic.usage reply));
              ("output_tokens",
               Anthropic.output_tokens (Anthropic.usage reply))] |})).
Proof.
  intros Ho Ha. rewrite (chat_secondary_path w request Ho Ha).
  eexists. split; [reflexivity|]. cbn [Anthropic.messages Anthropic.system
    Anthropic.model Anthropic.max_tokens calls outcome fst snd].
  split_and!; try done.
  - intros d Hd Hrole.
    apply list_elem_of_fmap in Hd as (m & -> & Hm).
    apply list_elem_of_filter in Hm as [Hne _].
    by apply message_dict_role in Hrole.
  - by intros ->.
  - intros n -> Hn. cbn. by destruct (Z.eqb_spec n 0).
  - intros response.
    destruct (anthropic_create _ _ _) as [e|reply]; [done|].
    destruct (index0 _) as [e|content]; [done|].
    intros [= <-]. by eexists.
  - intros reply first rest Hreply Hcontent. by rewrite Hreply, Hcontent.
Qed.

Lemma chat_secondary_call_witness :
  truthy (environ (Examples.world Examples.anthropic_only) !! OPENAI_API_KEY)
    = false ∧
  truthy (environ (Examples.world Examples.anthropic_only) !! ANTHROPIC_API_KEY)
    = true ∧
  ∃ args,
    calls (chat Examples.with_roles (Examples.world Examples.anthropic_only)) =
      [AnthropicCall (Some "sk-ant-test") args] ∧
    Anthropic.messages args =
      [ [("role", "System"); ("content", "Be formal.")];
        [("role", "user"); ("content", "Hi")];
        [("role", "tool"); ("content", "42")] ] ∧
    Anthropic.model args = "claude-3-sonnet-20240229" ∧
    outcome (chat Examples.with_roles (Examples.world Examples.anthropic_only)) =
      inr (Some {|
        ChatResponse.content := "Olá! Como posso ajudar?";
        ChatResponse.model := "claude-3-sonnet-20240229";
        ChatResponse.usage :=
          Some [("input_tokens", 12); ("output_tokens", 7)] |}).
Proof.
  split; [reflexivity|]. split; [reflexivity|].
  destruct (chat_secondary_call
              (Examples.world Examples.anthropic_only) Examples.with_roles
              eq_refl eq_refl)
    as (args & Hcalls & Hmsgs & _ & _ & Hmodel & _ & _ & _ & Hresponse).
  exists args. split; [exact Hcalls|]. split; [|split; [exact Hmodel|]].
  - rewrite Hmsgs. reflexivity.
  - exact (Hresponse Examples.message "Olá! Como posso ajudar?" []
                     eq_refl eq_refl).
Defined.

(** ** Unknown analyze tasks *)

(** C4.  For every analyze request whose task is none of "summarize",
    "extract", "classify", with the primary credential present, the
    outbound call is the very call made for task "summarize" on the same
    text (its user message is the summarize template applied to the text).
    When the provider answers with a first choice that has a text, the
    handler returns that text with the task of the request echoed, not
    "summarize"; and every response that is returned echoes the request's
    task, while its result is the one the "summarize" request gets. *)
Theorem analyze_unknown_task_uses_summarize
    (w : World) (text task : string) :
  truthy (environ w !! OPENAI_API_KEY) = true ->
  task ≠ "summarize" -> task ≠ "extract" -> task ≠ "classify" ->
  calls (analyze (AnalyzeRequest.mk text task) w) =
    calls (analyze (AnalyzeRequest.mk text "summarize") w) ∧
  (∃ args system,
     calls (analyze (AnalyzeRequest.mk text task) w) =
       [OpenAICall (environ w !! OPENAI_API_KEY) args] ∧
     OpenAI.messages args =
       [system; [("role", "user"); ("content", summarize_prompt text)]] ∧
     (∀ reply first rest,
        openai_create w (environ w !! OPENAI_API_KEY) args = inr reply ->
        OpenAI.choices reply = OpenAI.Text first :: rest ->
        outcome (analyze (AnalyzeRequest.mk text task) w) =
          inr {| AnalyzeResponse.result := first;
                 AnalyzeResponse.task := task |})) ∧
  (∀ response,
     outcome (analyze (AnalyzeRequest.mk text task) w) = inr response ->
     AnalyzeResponse.task response = task ∧
     outcome (analyze (AnalyzeRequest.mk text "summarize") w) =
       inr {| AnalyzeResponse.result := AnalyzeResponse.result response;
              AnalyzeResponse.task := "summarize" |}).
Proof.
  intros Ho Hs He Hc.
  rewrite !(analyze_primary_path w _ Ho).
  cbn [AnalyzeRequest.text AnalyzeRequest.task calls outcome fst snd].
  unfold dict_get.
  rewrite (prompts_unknown text task Hs He Hc), prompts_summarize.
  cbn [default].
  split_and!; [done| |].
  - do 2 eexists. split_and!; [done..|].
    intros reply first rest Hreply Hchoices. by rewrite Hreply, Hchoices.
  - intros response.
    destruct (openai_create _ _ _) as [e|reply]; [done|].
    destruct (index0 _) as [e|first]; [done|].
    destruct (validate_str _) as [e|content]; [done|].
    by intros [= <-].
Qed.

Lemma analyze_unknown_task_uses_summarize_witness :
  truthy (environ (Examples.world Examples.openai_only) !! OPENAI_API_KEY) = true ∧
  "unknown" ≠ "summarize" ∧ "unknown" ≠ "extract" ∧ "unknown" ≠ "classify" ∧
  calls (analyze Examples.unknown_task (Examples.world Examples.openai_only)) =
    calls (analyze (AnalyzeRequest.mk "long text" "summarize")
                   (Examples.world Examples.openai_only)) ∧
  outcome (analyze Examples.unknown_task (Examples.world Examples.openai_only)) =
    inr {| AnalyzeResponse.result := "Olá! Como posso ajudar?";
           AnalyzeResponse.task := "unknown" |}.
Proof.
  split; [reflexivity|]. do 3 (split; [discriminate|]).
  assert ("unknown" ≠ "summarize") as Hs by discriminate.
  assert ("unknown" ≠ "extract") as He by discriminate.
  assert ("unknown" ≠ "classify") as Hc by discriminate.
  destruct (analyze_unknown_task_uses_summarize
              (Examples.world Examples.openai_only) "long text" "unknown"
              eq_refl Hs He Hc)
    as (Hcalls & (args & system & _ & _ & Hresponse) & _).
  split; [exact Hcalls|].
  exact (Hresponse Examples.completion "Olá! Como posso ajudar?" []
                   eq_refl eq_refl).
Defined.

(** ** The primary-provider path of chat *)

(** C6, as the code has it.  For every chat request on the primary path
    the one outbound call carries the persona system message followed by
    the caller's messages, each forwarded in its place with role and
    content unchanged, and the request's temperature and max_tokens; its
    model is the request's model when that is a non-empty string, and
    "gpt-4" when the request's model is null or the empty string. *)
Theorem chat_primary_call (w : World) (request : ChatRequest.t) :
  truthy (environ w !! OPENAI_API_KEY) = true ->
  ∃ args,
    calls (chat request w) = [OpenAICall (environ w !! OPENAI_API_KEY) args] ∧
    OpenAI.messages args =
      system_prompt :: (message_dict <$> ChatRequest.messages request) ∧
    length (OpenAI.messages args) = S (length (ChatRequest.messages request)) ∧
    (∀ i m, ChatRequest.messages request !! i = Some m ->
            OpenAI.messages args !! S i =
              Some [("role", ChatMessage.role m);
                    ("content", ChatMessage.content m)]) ∧
    (∀ name, ChatRequest.model request = Some name -> name ≠ "" ->
             OpenAI.model args = name) ∧
    (ChatRequest.model request = None ∨ ChatRequest.model request = Some "" ->
     OpenAI.model args = "gpt-4") ∧
    OpenAI.temperature args = ChatRequest.temperature request ∧
    OpenAI.max_tokens args = Some (ChatRequest.max_tokens request).
Proof.
  intros Ho. rewrite (chat_primary_path w request Ho).
  eexists. split; [reflexivity|].
  cbn [OpenAI.messages OpenAI.model OpenAI.temperature OpenAI.max_tokens].
  split_and!; try done.
  - cbn. by rewrite length_fmap.
  - intros i m Hm.
    change ((message_dict <$> ChatRequest.messages request) !! i =
            Some (message_dict m)).
    by rewrite list_lookup_fmap, Hm.
  - intros name -> Hne. unfold or_str. cbn.
    by destruct (String.eqb_spec name "").
  - by intros [-> | ->].
Qed.

Lemma chat_primary_call_witness :
  truthy (environ (Examples.world Examples.both_keys) !! OPENAI_API_KEY) = true ∧
  ∃ args,
    calls (chat Examples.with_roles (Examples.world Examples.both_keys)) =
      [OpenAICall (Some "sk-test") args] ∧
    OpenAI.messages args =
      [ system_prompt;
        [("role", "system"); ("content", "Be brief.")];
        [("role", "System"); ("content", "Be formal.")];
        [("role", "user"); ("content", "Hi")];
        [("role", "tool"); ("content", "42")] ] ∧
    OpenAI.model args = "gpt-4".
Proof.
  split; [reflexivity|].
  destruct (chat_primary_call
              (Examples.world Examples.both_keys) Examples.with_roles eq_refl)
    as (args & Hcalls & Hmsgs & _ & _ & Hmodel & _).
  exists args. split; [exact Hcalls|]. split; [exact Hmsgs|].
  apply (Hmodel "gpt-4"); [reflexivity|discriminate].
Defined.

(** The reading [primary_call_uses_request_values] fails on a request
    whose model is the empty string: it takes the primary path, and the
    call names "gpt-4", not the request's model. *)
Lemma chat_primary_call_counterexample :
  truthy (environ (Examples.world Examples.openai_only) !! OPENAI_API_KEY) = true ∧
  ChatRequest.model Examples.hi_empty_model = Some "" ∧
  calls (chat Examples.hi_empty_model (Examples.world Examples.openai_only)) =
    [Examples.hi_openai_call] ∧
  ¬ primary_call_uses_request_values
      (Examples.world Examples.openai_only) Examples.hi_empty_model.
Proof.
  split_and!; [reflexivity..|].
  intros (args & Hcalls & _ & Hmodel & _).
  change (calls (chat Examples.hi_empty_model (Examples.world Examples.openai_only)))
    with [Examples.hi_openai_call] in Hcalls.
  unfold Examples.hi_openai_call in Hcalls.
  injection Hcalls as <-.
  discriminate Hmodel.
Qed.

(** ** Provider failures *)

(** C7.  For every chat or analyze request, when the outbound call the
    handler makes raises an exception, the handler's result is the
    [HTTPException] with status 500 whose detail is that exception's
    message as it is; the call log holds that one call (no retry) and no
    response is returned. *)
Theorem provider_exception_is_http_500
    (w : World) (c : Call) (e : PyException) :
  call_raises w c e ->
  (∀ request, c ∈ calls (chat request w) ->
     chat request w = ([c], inl (mkHTTPException 500 (exc_message e)))) ∧
  (∀ request, c ∈ calls (analyze request w) ->
     analyze request w = ([c], inl (mkHTTPException 500 (exc_message e)))).
Proof.
  intros Hraise. split; intros request.
  - destruct (truthy (environ w !! OPENAI_API_KEY)) eqn:Ho.
    + rewrite (chat_primary_path w request Ho). cbn [calls fst].
      intros ->%list_elem_of_singleton. cbn in Hraise. by rewrite Hraise.
    + destruct (truthy (environ w !! ANTHROPIC_API_KEY)) eqn:Ha.
      * rewrite (chat_secondary_path w request Ho Ha). cbn [calls fst].
        intros ->%list_elem_of_singleton. cbn in Hraise. by rewrite Hraise.
      * rewrite (chat_fallback_path w request Ho Ha). cbn [calls fst].
        by intros ?%elem_of_nil.
  - destruct (truthy (environ w !! OPENAI_API_KEY)) eqn:Ho.
    + rewrite (analyze_primary_path w request Ho). cbn [calls fst].
      intros ->%list_elem_of_singleton. cbn in Hraise. by rewrite Hraise.
    + rewrite (analyze_unconfigured_path w request Ho). cbn [calls fst].
      by intros ?%elem_of_nil.
Qed.

Lemma provider_exception_is_http_500_witness :
  call_raises (Examples.offline Examples.openai_only)
              Examples.hi_openai_call Examples.connection_error ∧
  chat Examples.hi (Examples.offline Examples.openai_only) =
    ([Examples.hi_openai_call],
     inl (mkHTTPException 500 "Connection error.")) ∧
  call_raises (Examples.offline Examples.openai_only)
              Examples.unknown_task_call Examples.connection_error ∧
  analyze Examples.unknown_task (Examples.offline Examples.openai_only) =
    ([Examples.unknown_task_call],
     inl (mkHTTPException 500 "Connection error.")).
Proof.
  split; [reflexivity|]. split.
  - apply (proj1 (provider_exception_is_http_500
                    (Examples.offline Examples.openai_only)
                    Examples.hi_openai_call Examples.connection_error eq_refl)
                 Examples.hi).
    apply list_elem_of_singleton. reflexivity.
  - split; [reflexivity|].
    apply (proj2 (provider_exception_is_http_500
                    (Examples.offline Examples.openai_only)
                    Examples.unknown_task_call Examples.connection_error eq_refl)
                 Examples.unknown_task).
    apply list_elem_of_singleton. reflexivity.
Defined.

(** ** Credentials set to the empty string *)

Lemma truthy_empty : truthy (Some "") = false.
Proof. reflexivity. Qed.

(** C9.  A credential variable set to the empty string counts as absent.
    For every chat request, a world with both variables set to "" gives
    the fallback reply, the very result of a world where both are unset;
    for every analyze request, a world with the primary variable set to ""
    gives the configuration-needed response, as a world where it is unset
    does. *)
Theorem empty_credentials_count_as_absent
    (w w' : World) (creq : ChatRequest.t) (areq : AnalyzeRequest.t) :
  environ w !! OPENAI_API_KEY = Some "" ->
  environ w' !! OPENAI_API_KEY = None ->
  (environ w !! ANTHROPIC_API_KEY = Some "" ->
   environ w' !! ANTHROPIC_API_KEY = None ->
   chat creq w = chat creq w' ∧
   chat creq w =
     ([], inr (Some {| ChatResponse.content := chat_fallback_content;
                       ChatResponse.model := "fallback";
                       ChatResponse.usage := None |}))) ∧
  analyze areq w = analyze areq w' ∧
  analyze areq w =
    ([], inr {| AnalyzeResponse.result := analyze_unconfigured_result;
                AnalyzeResponse.task := AnalyzeRequest.task areq |}).
Proof.
  intros Ho Ho'.
  assert (truthy (environ w !! OPENAI_API_KEY) = false) as Hf
    by (rewrite Ho; apply truthy_empty).
  assert (truthy (environ w' !! OPENAI_API_KEY) = false) as Hf'
    by (by rewrite Ho').
  split.
  - intros Ha Ha'.
    assert (truthy (environ w !! ANTHROPIC_API_KEY) = false) as Hg
      by (rewrite Ha; apply truthy_empty).
    assert (truthy (environ w' !! ANTHROPIC_API_KEY) = false) as Hg'
      by (by rewrite Ha').
    by rewrite (chat_fallback_path w creq Hf Hg),
               (chat_fallback_path w' creq Hf' Hg').
  - by rewrite (analyze_unconfigured_path w areq Hf),
               (analyze_unconfigured_path w' areq Hf').
Qed.

Lemma empty_credentials_count_as_absent_witness :
  environ (Examples.offline Examples.empty_keys) !! OPENAI_API_KEY = Some "" ∧
  environ (Examples.offline Examples.empty_keys) !! ANTHROPIC_API_KEY = Some "" ∧
  environ (Examples.offline Examples.no_keys) !! OPENAI_API_KEY = None ∧
  environ (Examples.offline Examples.no_keys) !! ANTHROPIC_API_KEY = None ∧
  chat Examples.hi (Examples.offline Examples.empty_keys) =
    chat Examples.hi (Examples.offline Examples.no_keys) ∧
  analyze Examples.unknown_task (Examples.offline Examples.empty_keys) =
    analyze Examples.unknown_task (Examples.offline Examples.no_keys).
Proof.
  do 4 (split; [reflexivity|]).
  destruct (empty_credentials_count_as_absent
              (Examples.offline Examples.empty_keys)
              (Examples.offline Examples.no_keys)
              Examples.hi Examples.unknown_task eq_refl eq_refl)
    as (Hchat & Hanalyze & _).
  split; [|exact Hanalyze].
  exact (proj1 (Hchat eq_refl eq_refl)).
Defined.

(** ** Message roles *)



(** * Further properties of the handlers *)

(** ** What a request can end in *)

(** X1.  Every chat request makes at most one outbound call and ends
    either in a [ChatResponse] or in an [HTTPException] of status 500; the
    handler never falls off its end (no null body) and never raises
    another status. *)
Theorem chat_outcome_shape (w : World) (request : ChatRequest.t) :
  (length (calls (chat request w)) ≤ 1)%nat ∧
  ((∃ response, outcome (chat request w) = inr (Some response)) ∨
   (∃ message,
      outcome (chat request w) = inl (mkHTTPException 500 message))).
Proof.
  destruct (truthy (environ w !! OPENAI_API_KEY)) eqn:Ho;
    [rewrite (chat_primary_path w request Ho)|
     destruct (truthy (environ w !! ANTHROPIC_API_KEY)) eqn:Ha;
     [rewrite (chat_secondary_path w request Ho Ha)|
      rewrite (chat_fallback_path w request Ho Ha)]];
    cbn [calls outcome fst snd length]; (split; [lia|]).
  - destruct (openai_create _ _ _) as [e|reply]; [right; by eexists|].
    destruct (index0 _) as [e|first]; [right; by eexists|].
    destruct (usage_counts _) as [e|usage]; [right; by eexists|].
    destruct (validate_str _) as [e|content]; [right|left]; by eexists.
  - destruct (anthropic_create _ _ _) as [e|reply]; [right; by eexists|].
    destruct (index0 _) as [e|content]; [right|left]; by eexists.
  - left. by eexists.
Qed.

(** X2.  Every analyze request makes no outbound call or exactly one, to
    the primary provider with the key read from the environment, never to
    the secondary provider; a response that is returned echoes the
    request's task, and a failure has status 500. *)
Theorem analyze_outcome_shape (w : World) (request : AnalyzeRequest.t) :
  (calls (analyze request w) = [] ∨
   ∃ args, calls (analyze request w) =
             [OpenAICall (environ w !! OPENAI_API_KEY) args]) ∧
  (∀ key args, AnthropicCall key args ∉ calls (analyze request w)) ∧
  (∀ response, outcome (analyze request w) = inr response ->
     AnalyzeResponse.task response = AnalyzeRequest.task request) ∧
  (∀ h, outcome (analyze request w) = inl h -> status_code h = 500).
Proof.
  destruct (truthy (environ w !! OPENAI_API_KEY)) eqn:Ho;
    [rewrite (analyze_primary_path w request Ho)|
     rewrite (analyze_unconfigured_path w request Ho)];
    cbn [calls outcome fst snd].
  - split_and!.
    + right. by eexists.
    + intros key args Hin. by apply list_elem_of_singleton in Hin.
    + intros response.
      destruct (openai_create _ _ _) as [e|reply]; [done|].
      destruct (index0 _) as [e|first]; [done|].
      destruct (validate_str _) as [e|content]; [done|]. by intros [= <-].
    + intros h.
      destruct (openai_create _ _ _) as [e|reply]; [by intros [= <-]|].
      destruct (index0 _) as [e|first]; [by intros [= <-]|].
      destruct (validate_str _) as [e|content]; [by intros [= <-]|done].
  - split_and!; [by left| |by intros ? [= <-]|done].
    intros key args Hin. by apply elem_of_nil in Hin.
Qed.

(** ** Shaping a provider reply *)

(** X3.  When the primary provider answers a chat call with a reply whose
    first choice has a text and that reports its usage, the response's
    content is that text, its model is the one the provider reports (not
    the one requested) and its usage holds the provider's three counts
    under [prompt_tokens], [completion_tokens] and [total_tokens], the
    total as reported, not recomputed. *)
Theorem chat_primary_response
    (w : World) (request : ChatRequest.t) (key : option string)
    (args : OpenAI.create_args) (reply : OpenAI.ChatCompletion)
    (first : string) (rest : list OpenAI.Content)
    (usage : OpenAI.CompletionUsage) :
  OpenAICall key args ∈ calls (chat request w) ->
  openai_create w key args = inr reply ->
  OpenAI.choices reply = OpenAI.Text first :: rest ->
  OpenAI.usage reply = Some usage ->
  outcome (chat request w) =
    inr (Some {|
      ChatResponse.content := first;
      ChatResponse.model := OpenAI.response_model reply;
      ChatResponse.usage := Some
        [("prompt_tokens", OpenAI.prompt_tokens usage);
         ("completion_tokens", OpenAI.completion_tokens usage);
         ("total_tokens", OpenAI.total_tokens usage)] |}).
Proof.
  intros Hin Hreply Hchoices Husage.
  destruct (truthy (environ w !! OPENAI_API_KEY)) eqn:Ho.
  - rewrite (chat_primary_path w request Ho) in Hin |- *.
    cbn [calls outcome fst snd] in Hin |- *.
    apply list_elem_of_singleton in Hin. injection Hin as -> ->.
    by rewrite Hreply, Hchoices, Husage.
  - destruct (truthy (environ w !! ANTHROPIC_API_KEY)) eqn:Ha.
    + rewrite (chat_secondary_path w request Ho Ha) in Hin.
      by apply list_elem_of_singleton in Hin.
    + rewrite (chat_fallback_path w request Ho Ha) in Hin.
      by apply elem_of_nil in Hin.
Qed.

Lemma chat_primary_response_witness :
  Examples.hi_openai_call ∈
    calls (chat Examples.hi (Edge.talkative Examples.openai_only)) ∧
  outcome (chat Examples.hi (Edge.talkative Examples.openai_only)) =
    inr (Some {|
      ChatResponse.content := "first";
      ChatResponse.model := "gpt-4-0613";
      ChatResponse.usage := Some
        [("prompt_tokens", 12); ("completion_tokens", 7); ("total_tokens", 25)] |}).
Proof.
  assert (Examples.hi_openai_call ∈
            calls (chat Examples.hi (Edge.talkative Examples.openai_only))) as Hin.
  { apply list_elem_of_singleton. reflexivity. }
  split; [exact Hin|].
  exact (chat_primary_response
           (Edge.talkative Examples.openai_only) Examples.hi _ _
           Edge.two_choices "first" [OpenAI.Text "second"]
           (OpenAI.mk_usage 12 7 25) Hin eq_refl eq_refl eq_refl).
Defined.

(** X4.  When the secondary provider answers a chat call with at least one
    content block, the response's content is the text of the first block
    and its model is the one the provider reports, which need not be the
    identifier sent in the call. *)
Theorem chat_secondary_response
    (w : World) (request : ChatRequest.t) (key : option string)
    (args : Anthropic.create_args) (reply : Anthropic.Message)
    (first : string) (rest : list string) :
  AnthropicCall key args ∈ calls (chat request w) ->
  anthropic_create w key args = inr reply ->
  Anthropic.content reply = first :: rest ->
  ∃ response,
    outcome (chat request w) = inr (Some response) ∧
    ChatResponse.content response = first ∧
    ChatResponse.model response = Anthropic.response_model reply.
Proof.
  intros Hin Hreply Hcontent.
  destruct (truthy (environ w !! OPENAI_API_KEY)) eqn:Ho.
  - rewrite (chat_primary_path w request Ho) in Hin.
    by apply list_elem_of_singleton in Hin.
  - destruct (truthy (environ w !! ANTHROPIC_API_KEY)) eqn:Ha.
    + rewrite (chat_secondary_path w request Ho Ha) in Hin |- *.
      cbn [calls outcome fst snd] in Hin |- *.
      apply list_elem_of_singleton in Hin. injection Hin as -> ->.
      rewrite Hreply, Hcontent. by eexists.
    + rewrite (chat_fallback_path w request Ho Ha) in Hin.
      by apply elem_of_nil in Hin.
Qed.

Lemma chat_secondary_response_witness :
  Edge.hi_anthropic_call ∈
    calls (chat Examples.hi (Edge.talkative Examples.anthropic_only)) ∧
  ∃ response,
    outcome (chat Examples.hi (Edge.talkative Examples.anthropic_only)) =
      inr (Some response) ∧
    ChatResponse.content response = "first" ∧
    ChatResponse.model response = "claude-3-sonnet-20240229-v1".
Proof.
  assert (Edge.hi_anthropic_call ∈
            calls (chat Examples.hi (Edge.talkative Examples.anthropic_only)))
    as Hin.
  { apply list_elem_of_singleton. reflexivity. }
  split; [exact Hin|].
  exact (chat_secondary_response
           (Edge.talkative Examples.anthropic_only) Examples.hi _ _
           Edge.two_blocks "first" ["second"] Hin eq_refl eq_refl).
Defined.

(** X5.  When the provider answers an analyze call with a reply whose
    first choice has a text, the response's result is that text and its
    task is the request's task; the other choices, the reported model and
    the usage (present or not) are dropped. *)
Theorem analyze_response
    (w : World) (request : AnalyzeRequest.t) (key : option string)
    (args : OpenAI.create_args) (reply : OpenAI.ChatCompletion)
    (first : string) (rest : list OpenAI.Content) :
  OpenAICall key args ∈ calls (analyze request w) ->
  openai_create w key args = inr reply ->
  OpenAI.choices reply = OpenAI.Text first :: rest ->
  outcome (analyze request w) =
    inr {| AnalyzeResponse.result := first;
           AnalyzeResponse.task := AnalyzeRequest.task request |}.
Proof.
  intros Hin Hreply Hchoices.
  destruct (truthy (environ w !! OPENAI_API_KEY)) eqn:Ho.
  - rewrite (analyze_primary_path w request Ho) in Hin |- *.
    cbn [calls outcome fst snd] in Hin |- *.
    apply list_elem_of_singleton in Hin. injection Hin as -> ->.
    by rewrite Hreply, Hchoices.
  - rewrite (analyze_unconfigured_path w request Ho) in Hin.
    by apply elem_of_nil in Hin.
Qed.

Lemma analyze_response_witness :
  Examples.unknown_task_call ∈
    calls (analyze Examples.unknown_task (Edge.talkative Examples.openai_only)) ∧
  outcome (analyze Examples.unknown_task (Edge.talkative Examples.openai_only)) =
    inr {| AnalyzeResponse.result := "first";
           AnalyzeResponse.task := "unknown" |}.
Proof.
  assert (Examples.unknown_task_call ∈
            calls (analyze Examples.unknown_task
                           (Edge.talkative Examples.openai_only))) as Hin.
  { apply list_elem_of_singleton. reflexivity. }
  split; [exact Hin|].
  exact (analyze_response
           (Edge.talkative Examples.openai_only) Examples.unknown_task _ _
           Edge.two_choices "first" [OpenAI.Text "second"]
           Hin eq_refl eq_refl).
Defined.

(** ** An empty reply *)

(** X6.  When the provider answers the outbound call of a chat or analyze
    request with no choice (or no content block), indexing the first one
    raises [IndexError]: the handler's result is the [HTTPException] of
    status 500 with detail "list index out of range", after that single
    call; no response with an empty content is returned. *)
Theorem empty_reply_is_http_500 (w : World) (c : Call) :
  call_returns_empty w c ->
  (∀ request, c ∈ calls (chat request w) ->
     chat request w =
       ([c], inl (mkHTTPException 500 "list index out of range"))) ∧
  (∀ request, c ∈ calls (analyze request w) ->
     analyze request w =
       ([c], inl (mkHTTPException 500 "list index out of range"))).
Proof.
  intros Hempty. split; intros request.
  - destruct (truthy (environ w !! OPENAI_API_KEY)) eqn:Ho.
    + rewrite (chat_primary_path w request Ho). cbn [calls fst].
      intros ->%list_elem_of_singleton.
      destruct Hempty as (reply & Hreply & Hnil). by rewrite Hreply, Hnil.
    + destruct (truthy (environ w !! ANTHROPIC_API_KEY)) eqn:Ha.
      * rewrite (chat_secondary_path w request Ho Ha). cbn [calls fst].
        intros ->%list_elem_of_singleton.
        destruct Hempty as (reply & Hreply & Hnil). by rewrite Hreply, Hnil.
      * rewrite (chat_fallback_path w request Ho Ha). cbn [calls fst].
        by intros ?%elem_of_nil.
  - destruct (truthy (environ w !! OPENAI_API_KEY)) eqn:Ho.
    + rewrite (analyze_primary_path w request Ho). cbn [calls fst].
      intros ->%list_elem_of_singleton.
      destruct Hempty as (reply & Hreply & Hnil). by rewrite Hreply, Hnil.
    + rewrite (analyze_unconfigured_path w request Ho). cbn [calls fst].
      by intros ?%elem_of_nil.
Qed.

Lemma empty_reply_is_http_500_witness :
  call_returns_empty (Edge.silent Examples.anthropic_only) Edge.hi_anthropic_call ∧
  chat Examples.hi (Edge.silent Examples.anthropic_only) =
    ([Edge.hi_anthropic_call],
     inl (mkHTTPException 500 "list index out of range")) ∧
  call_returns_empty (Edge.silent Examples.openai_only) Examples.unknown_task_call ∧
  analyze Examples.unknown_task (Edge.silent Examples.openai_only) =
    ([Examples.unknown_task_call],
     inl (mkHTTPException 500 "list index out of range")).
Proof.
  assert (call_returns_empty (Edge.silent Examples.anthropic_only)
                             Edge.hi_anthropic_call) as Hchat.
  { exists Edge.no_block. split; reflexivity. }
  assert (call_returns_empty (Edge.silent Examples.openai_only)
                             Examples.unknown_task_call) as Hanalyze.
  { exists Edge.no_choice. split; reflexivity. }
  split; [exact Hchat|]. split.
  - apply (proj1 (empty_reply_is_http_500 _ _ Hchat) Examples.hi).
    apply list_elem_of_singleton. reflexivity.
  - split; [exact Hanalyze|].
    apply (proj2 (empty_reply_is_http_500 _ _ Hanalyze) Examples.unknown_task).
    apply list_elem_of_singleton. reflexivity.
Defined.

(** ** The prompt of analyze *)

Lemma prompts_extract (text : string) :
  prompts text !! "extract" =
    Some ("Extraia as informações principais do seguinte texto:

" +:+ text).
Proof.
  unfold prompts. rewrite lookup_insert_ne by done. by rewrite lookup_insert_eq.
Qed.

Lemma prompts_classify (text : string) :
  prompts text !! "classify" =
    Some ("Classifique o seguinte texto por categoria e sentimento:

" +:+ text).
Proof.
  unfold prompts. rewrite !lookup_insert_ne by done.
  by rewrite lookup_singleton_eq.
Qed.

(** Whatever the task, the prompt is a template, fixed by the task alone,
    followed by the text. *)
Lemma prompt_is_template_then_text (task : string) :
  ∃ template, ∀ text,
    dict_get (prompts text) task (summarize_prompt text) = template +:+ text.
Proof.
  unfold dict_get.
  destruct (decide (task = "summarize")) as [->|Hs].
  { eexists. intros text. by rewrite prompts_summarize. }
  destruct (decide (task = "extract")) as [->|He].
  { eexists. intros text. by rewrite prompts_extract. }
  destruct (decide (task = "classify")) as [->|Hc].
  { eexists. intros text. by rewrite prompts_classify. }
  eexists. intros text. by rewrite (prompts_unknown text task Hs He Hc).
Qed.

(** X7.  With the primary credential present, the one call of analyze
    asks model "gpt-4" at temperature 0.3 without a [max_tokens] argument,
    with two messages: the fixed system instruction and a user message
    whose content is a template chosen by the task alone followed by the
    request's text as it is (the same template for any two texts, so the
    text is neither escaped nor truncated). *)
Theorem analyze_prompt_appends_text (w : World) (task text text' : string) :
  truthy (environ w !! OPENAI_API_KEY) = true ->
  ∃ template system,
    (∃ args,
       calls (analyze (AnalyzeRequest.mk text task) w) =
         [OpenAICall (environ w !! OPENAI_API_KEY) args] ∧
       OpenAI.messages args =
         [system; [("role", "user"); ("content", template +:+ text)]] ∧
       OpenAI.model args = "gpt-4" ∧
       OpenAI.temperature args = Some temperature_0_3 ∧
       OpenAI.max_tokens args = None) ∧
    (∃ args',
       calls (analyze (AnalyzeRequest.mk text' task) w) =
         [OpenAICall (environ w !! OPENAI_API_KEY) args'] ∧
       OpenAI.messages args' =
         [system; [("role", "user"); ("content", template +:+ text')]]) ∧
    system = [("role", "system");
              ("content", "Você é um assistente de análise de texto.")].
Proof.
  intros Ho. destruct (prompt_is_template_then_text task) as [template Ht].
  exists template. eexists.
  rewrite !(analyze_primary_path w _ Ho).
  cbn [AnalyzeRequest.text AnalyzeRequest.task calls fst].
  rewrite !Ht.
  split_and!; [eexists; by split_and!|eexists; by split_and!|done].
Qed.

Lemma analyze_prompt_appends_text_witness :
  truthy (environ (Examples.world Examples.openai_only) !! OPENAI_API_KEY) = true ∧
  ∃ template system,
    (∃ args,
       calls (analyze (AnalyzeRequest.mk "a" "classify")
                      (Examples.world Examples.openai_only)) =
         [OpenAICall (Some "sk-test") args] ∧
       OpenAI.messages args =
         [system; [("role", "user"); ("content", template +:+ "a")]]) ∧
    (∃ args',
       calls (analyze (AnalyzeRequest.mk "b" "classify")
                      (Examples.world Examples.openai_only)) =
         [OpenAICall (Some "sk-test") args'] ∧
       OpenAI.messages args' =
         [system; [("role", "user"); ("content", template +:+ "b")]]).
Proof.
  split; [reflexivity|].
  destruct (analyze_prompt_appends_text
              (Examples.world Examples.openai_only) "classify" "a" "b" eq_refl)
    as (template & system & (args & Hcalls & Hmsgs & _) & Hb & _).
  exists template, system. split; [|exact Hb].
  exists args. split; [exact Hcalls|exact Hmsgs].
Defined.

(** X8.  With the primary credential present, the three known tasks give
    three different outbound calls on the same text: the task chooses the
    prompt. *)
Theorem analyze_known_tasks_differ (w : World) (text : string) :
  truthy (environ w !! OPENAI_API_KEY) = true ->
  calls (analyze (AnalyzeRequest.mk text "summarize") w) ≠
    calls (analyze (AnalyzeRequest.mk text "extract") w) ∧
  calls (analyze (AnalyzeRequest.mk text "summarize") w) ≠
    calls (analyze (AnalyzeRequest.mk text "classify") w) ∧
  calls (analyze (AnalyzeRequest.mk text "extract") w) ≠
    calls (analyze (AnalyzeRequest.mk text "classify") w).
Proof.
  intros Ho. rewrite !(analyze_primary_path w _ Ho).
  cbn [AnalyzeRequest.text AnalyzeRequest.task calls fst].
  unfold dict_get.
  rewrite prompts_summarize, prompts_extract, prompts_classify.
  cbn [default]. unfold summarize_prompt.
  split_and!; intros Heq; injection Heq as Heq; cbn in Heq; discriminate Heq.
Qed.

Lemma analyze_known_tasks_differ_witness :
  truthy (environ (Examples.world Examples.openai_only) !! OPENAI_API_KEY) = true ∧
  calls (analyze (AnalyzeRequest.mk "long text" "summarize")
                 (Examples.world Examples.openai_only)) ≠
    calls (analyze (AnalyzeRequest.mk "long text" "extract")
                   (Examples.world Examples.openai_only)).
Proof.
  split; [reflexivity|].
  apply (analyze_known_tasks_differ
           (Examples.world Examples.openai_only) "long text" eq_refl).
Defined.

(** ** What the secondary path of chat reads *)

(** X9.  Without the primary credential, the result of chat depends on the
    request only through its messages and its max_tokens: two requests
    that agree on these make the same call and get the same result,
    whatever their model, temperature and user_id are. *)
Theorem chat_secondary_ignores_model_and_temperature
    (w : World) (request request' : ChatRequest.t) :
  truthy (environ w !! OPENAI_API_KEY) = false ->
  ChatRequest.messages request = ChatRequest.messages request' ->
  ChatRequest.max_tokens request = ChatRequest.max_tokens request' ->
  chat request w = chat request' w.
Proof.
  intros Ho Hmsgs Hmax.
  destruct (truthy (environ w !! ANTHROPIC_API_KEY)) eqn:Ha.
  - rewrite !(chat_secondary_path w _ Ho Ha). by rewrite Hmsgs, Hmax.
  - by rewrite !(chat_fallback_path w _ Ho Ha).
Qed.

Lemma chat_secondary_ignores_model_and_temperature_witness :
  truthy (environ (Examples.world Examples.anthropic_only) !! OPENAI_API_KEY)
    = false ∧
  ChatRequest.model Examples.hi ≠ ChatRequest.model Edge.hi_other_params ∧
  ChatRequest.temperature Examples.hi ≠
    ChatRequest.temperature Edge.hi_other_params ∧
  chat Examples.hi (Examples.world Examples.anthropic_only) =
    chat Edge.hi_other_params (Examples.world Examples.anthropic_only).
Proof.
  split; [reflexivity|]. split; [discriminate|]. split; [discriminate|].
  apply (chat_secondary_ignores_model_and_temperature
           (Examples.world Examples.anthropic_only)
           Examples.hi Edge.hi_other_params); reflexivity.
Defined.

(** X10.  A call to the secondary provider never carries [max_tokens] 0:
    a request whose max_tokens is 0 is sent with 1000, like one whose
    max_tokens is null. *)
Theorem chat_secondary_max_tokens_never_zero
    (w : World) (request : ChatRequest.t) (key : option string)
    (args : Anthropic.create_args) :
  AnthropicCall key args ∈ calls (chat request w) ->
  Anthropic.max_tokens args ≠ 0 ∧
  (ChatRequest.max_tokens request = Some 0 ∨
   ChatRequest.max_tokens request = None ->
   Anthropic.max_tokens args = 1000).
Proof.
  intros Hin.
  destruct (truthy (environ w !! OPENAI_API_KEY)) eqn:Ho.
  - rewrite (chat_primary_path w request Ho) in Hin.
    by apply list_elem_of_singleton in Hin.
  - destruct (truthy (environ w !! ANTHROPIC_API_KEY)) eqn:Ha.
    + rewrite (chat_secondary_path w request Ho Ha) in Hin.
      apply list_elem_of_singleton in Hin. injection Hin as -> ->.
      cbn [Anthropic.max_tokens]. unfold or_int. split.
      * destruct (ChatRequest.max_tokens request) as [n|]; [|done].
        by destruct (Z.eqb_spec n 0).
      * by intros [-> | ->].
    + rewrite (chat_fallback_path w request Ho Ha) in Hin.
      by apply elem_of_nil in Hin.
Qed.

Lemma chat_secondary_max_tokens_never_zero_witness :
  ChatRequest.max_tokens Edge.zero_max_tokens = Some 0 ∧
  calls (chat Edge.zero_max_tokens (Examples.world Examples.anthropic_only)) =
    [Edge.hi_anthropic_call] ∧
  Anthropic.max_tokens
    {| Anthropic.model := "claude-3-sonnet-20240229";
       Anthropic.max_tokens := 1000;
       Anthropic.system := anthropic_system;
       Anthropic.messages := [ [("role", "user"); ("content", "Hi")] ] |} ≠ 0.
Proof.
  split; [reflexivity|]. split; [reflexivity|].
  apply (chat_secondary_max_tokens_never_zero
           (Examples.world Examples.anthropic_only) Edge.zero_max_tokens
           (Some "sk-ant-test")).
  apply list_elem_of_singleton. reflexivity.
Defined.

(** X11.  The [user_id] of a chat request is never read: replacing it
    changes neither the outbound call nor the result, on any path. *)
Theorem chat_ignores_user_id
    (w : World) (request : ChatRequest.t) (uid : option string) :
  chat (with_user_id uid request) w = chat request w.
Proof.
  destruct (truthy (environ w !! OPENAI_API_KEY)) eqn:Ho.
  - by rewrite !(chat_primary_path w _ Ho).
  - destruct (truthy (environ w !! ANTHROPIC_API_KEY)) eqn:Ha.
    + by rewrite !(chat_secondary_path w _ Ho Ha).
    + by rewrite !(chat_fallback_path w _ Ho Ha).
Qed.

(** ** The conversation forwarded to the secondary provider *)

Lemma filter_not_system_all (msgs : list ChatMessage.t) :
  Forall (λ m, ChatMessage.role m ≠ "system") msgs ->
  filter (λ m, ChatMessage.role m ≠ "system") msgs = msgs.
Proof.
  induction 1 as [|m msgs Hm _ IH]; [done|].
  rewrite filter_cons_True by done. by rewrite IH.
Qed.

Lemma filter_not_system_none (msgs : list ChatMessage.t) :
  Forall (λ m, ChatMessage.role m = "system") msgs ->
  filter (λ m, ChatMessage.role m ≠ "system") msgs = [].
Proof.
  induction 1 as [|m msgs Hm _ IH]; [done|].
  rewrite filter_cons_False; [done|]. by intros Hne.
Qed.

Lemma filter_not_system_length (msgs : list ChatMessage.t) :
  (length (filter (λ m, ChatMessage.role m ≠ "system") msgs) +
   length (filter (λ m, ChatMessage.role m = "system") msgs) =
   length msgs)%nat.
Proof.
  induction msgs as [|m msgs IH]; [done|].
  rewrite !filter_cons.
  destruct (decide (ChatMessage.role m = "system")) as [Heq|Hne].
  - rewrite decide_False by (by intros Hne). cbn. lia.
  - rewrite decide_True by done. cbn. lia.
Qed.

(** X12.  The conversation sent to the secondary provider is a
    subsequence of the caller's messages: the messages kept stay in their
    order, each with its role and content; their number is the number of
    caller messages less those of role "system"; and when no caller
    message has role "system" the whole conversation is forwarded. *)
Theorem chat_secondary_keeps_order
    (w : World) (request : ChatRequest.t) (key : option string)
    (args : Anthropic.create_args) :
  AnthropicCall key args ∈ calls (chat request w) ->
  Anthropic.messages args `sublist_of`
    (message_dict <$> ChatRequest.messages request) ∧
  (length (Anthropic.messages args) +
   length (filter (λ m, ChatMessage.role m = "system")
                  (ChatRequest.messages request)) =
   length (ChatRequest.messages request))%nat ∧
  (Forall (λ m, ChatMessage.role m ≠ "system") (ChatRequest.messages request) ->
   Anthropic.messages args = message_dict <$> ChatRequest.messages request).
Proof.
  intros Hin.
  destruct (truthy (environ w !! OPENAI_API_KEY)) eqn:Ho.
  - rewrite (chat_primary_path w request Ho) in Hin.
    by apply list_elem_of_singleton in Hin.
  - destruct (truthy (environ w !! ANTHROPIC_API_KEY)) eqn:Ha.
    + rewrite (chat_secondary_path w request Ho Ha) in Hin.
      apply list_elem_of_singleton in Hin. injection Hin as -> ->.
      cbn [Anthropic.messages]. split_and!.
      * apply fmap_sublist, sublist_filter.
      * rewrite length_fmap. apply filter_not_system_length.
      * intros Hall. by rewrite filter_not_system_all.
    + rewrite (chat_fallback_path w request Ho Ha) in Hin.
      by apply elem_of_nil in Hin.
Qed.

Lemma chat_secondary_keeps_order_witness :
  Edge.hi_anthropic_call ∈
    calls (chat Examples.hi (Examples.world Examples.anthropic_only)) ∧
  [ [("role", "user"); ("content", "Hi")] ] `sublist_of`
    (message_dict <$> ChatRequest.messages Examples.hi).
Proof.
  assert (Edge.hi_anthropic_call ∈
            calls (chat Examples.hi (Examples.world Examples.anthropic_only)))
    as Hin.
  { apply list_elem_of_singleton. reflexivity. }
  split; [exact Hin|].
  exact (proj1 (chat_secondary_keeps_order
                  (Examples.world Examples.anthropic_only) Examples.hi _ _ Hin)).
Defined.

(** X13.  On the secondary path a request whose messages all have role
    "system", or that has no message at all, still makes the outbound
    call, with an empty conversation. *)
Theorem chat_secondary_only_system (w : World) (request : ChatRequest.t) :
  truthy (environ w !! OPENAI_API_KEY) = false ->
  truthy (environ w !! ANTHROPIC_API_KEY) = true ->
  Forall (λ m, ChatMessage.role m = "system") (ChatRequest.messages request) ->
  ∃ args,
    calls (chat request w) =
      [AnthropicCall (environ w !! ANTHROPIC_API_KEY) args] ∧
    Anthropic.messages args = [].
Proof.
  intros Ho Ha Hall. rewrite (chat_secondary_path w request Ho Ha).
  eexists. split; [reflexivity|]. cbn [Anthropic.messages].
  by rewrite filter_not_system_none.
Qed.

Lemma chat_secondary_only_system_witness :
  truthy (environ (Examples.world Examples.anthropic_only) !! OPENAI_API_KEY)
    = false ∧
  truthy (environ (Examples.world Examples.anthropic_only) !! ANTHROPIC_API_KEY)
    = true ∧
  Forall (λ m, ChatMessage.role m = "system")
         (ChatRequest.messages Edge.only_system) ∧
  ∃ args,
    calls (chat Edge.only_system (Examples.world Examples.anthropic_only)) =
      [AnthropicCall (Some "sk-ant-test") args] ∧
    Anthropic.messages args = [].
Proof.
  split; [reflexivity|]. split; [reflexivity|].
  assert (Forall (λ m, ChatMessage.role m = "system")
                 (ChatRequest.messages Edge.only_system)) as Hall.
  { repeat constructor. }
  split; [exact Hall|].
  exact (chat_secondary_only_system
           (Examples.world Examples.anthropic_only) Edge.only_system
           eq_refl eq_refl Hall).
Defined.

(** ** What the handlers read of the world *)

(** X14.  The result of analyze depends on the world only through the
    primary credential and the primary provider: two worlds that agree on
    [OPENAI_API_KEY] and on the primary provider's answers under that key
    give the same result, whatever the secondary credential, the secondary
    provider and the other environment variables are. *)
Theorem analyze_reads_primary_only
    (w w' : World) (request : AnalyzeRequest.t) :
  environ w !! OPENAI_API_KEY = environ w' !! OPENAI_API_KEY ->
  (∀ args, openai_create w (environ w !! OPENAI_API_KEY) args =
           openai_create w' (environ w !! OPENAI_API_KEY) args) ->
  analyze request w = analyze request w'.
Proof.
  intros Henv Hcreate.
  destruct (truthy (environ w !! OPENAI_API_KEY)) eqn:Ho.
  - assert (truthy (environ w' !! OPENAI_API_KEY) = true) as Ho'
      by (by rewrite <- Henv).
    rewrite (analyze_primary_path w request Ho),
            (analyze_primary_path w' request Ho').
    by rewrite <- Henv, Hcreate.
  - assert (truthy (environ w' !! OPENAI_API_KEY) = false) as Ho'
      by (by rewrite <- Henv).
    by rewrite (analyze_unconfigured_path w request Ho),
               (analyze_unconfigured_path w' request Ho').
Qed.

Lemma analyze_reads_primary_only_witness :
  environ (Examples.world Examples.both_keys) !! ANTHROPIC_API_KEY ≠
    environ (Edge.primary_up Edge.with_home) !! ANTHROPIC_API_KEY ∧
  environ (Examples.world Examples.both_keys) !! "HOME" ≠
    environ (Edge.primary_up Edge.with_home) !! "HOME" ∧
  analyze Examples.unknown_task (Examples.world Examples.both_keys) =
    analyze Examples.unknown_task (Edge.primary_up Edge.with_home).
Proof.
  split; [discriminate|]. split; [discriminate|].
  apply (analyze_reads_primary_only
           (Examples.world Examples.both_keys) (Edge.primary_up Edge.with_home)
           Examples.unknown_task); [reflexivity|].
  intros args. reflexivity.
Defined.

(** X15.  With the primary credential present, the result of chat depends
    on the world only through that credential and the primary provider:
    the secondary credential and the secondary provider play no part, even
    when the primary provider fails (no second attempt on the secondary
    provider). *)
Theorem chat_primary_reads_primary_only
    (w w' : World) (request : ChatRequest.t) :
  truthy (environ w !! OPENAI_API_KEY) = true ->
  environ w !! OPENAI_API_KEY = environ w' !! OPENAI_API_KEY ->
  (∀ args, openai_create w (environ w !! OPENAI_API_KEY) args =
           openai_create w' (environ w !! OPENAI_API_KEY) args) ->
  chat request w = chat request w'.
Proof.
  intros Ho Henv Hcreate.
  assert (truthy (environ w' !! OPENAI_API_KEY) = true) as Ho'
    by (by rewrite <- Henv).
  rewrite (chat_primary_path w request Ho), (chat_primary_path w' request Ho').
  by rewrite <- Henv, Hcreate.
Qed.

Lemma chat_primary_reads_primary_only_witness :
  truthy (environ (Examples.offline Examples.both_keys) !! OPENAI_API_KEY) = true ∧
  truthy (environ (Examples.offline Examples.both_keys) !! ANTHROPIC_API_KEY)
    = true ∧
  chat Examples.hi (Examples.offline Examples.both_keys) =
    chat Examples.hi (Examples.offline Examples.openai_only) ∧
  chat Examples.hi (Examples.offline Examples.both_keys) =
    ([Examples.hi_openai_call], inl (mkHTTPException 500 "Connection error.")).
Proof.
  split; [reflexivity|]. split; [reflexivity|].
  split; [|reflexivity].
  apply (chat_primary_reads_primary_only
           (Examples.offline Examples.both_keys)
           (Examples.offline Examples.openai_only) Examples.hi);
    [reflexivity|reflexivity|].
  intros args. reflexivity.
Defined.

(** X16.  A credential set to the empty string is indistinguishable from
    an unset one in every combination: two worlds with the same providers
    whose credentials are pairwise equal or both falsy give the same chat
    result and the same analyze result.  In particular an empty primary
    credential does not keep chat from using a valid secondary one. *)
Theorem falsy_credentials_are_interchangeable
    (w w' : World) (creq : ChatRequest.t) (areq : AnalyzeRequest.t) :
  openai_create w = openai_create w' ->
  anthropic_create w = anthropic_create w' ->
  (environ w !! OPENAI_API_KEY = environ w' !! OPENAI_API_KEY ∨
   truthy (environ w !! OPENAI_API_KEY) = false ∧
   truthy (environ w' !! OPENAI_API_KEY) = false) ->
  (environ w !! ANTHROPIC_API_KEY = environ w' !! ANTHROPIC_API_KEY ∨
   truthy (environ w !! ANTHROPIC_API_KEY) = false ∧
   truthy (environ w' !! ANTHROPIC_API_KEY) = false) ->
  chat creq w = chat creq w' ∧ analyze areq w = analyze areq w'.
Proof.
  intros Hopenai Hanthropic Ho Ha.
  assert (truthy (environ w !! OPENAI_API_KEY) =
          truthy (environ w' !! OPENAI_API_KEY)) as Hto
    by (destruct Ho as [-> | [-> ->]]; done).
  assert (truthy (environ w !! ANTHROPIC_API_KEY) =
          truthy (environ w' !! ANTHROPIC_API_KEY)) as Hta
    by (destruct Ha as [-> | [-> ->]]; done).
  destruct (truthy (environ w' !! OPENAI_API_KEY)) eqn:Ho'.
  - destruct Ho as [Ho | [Ho _]]; [|congruence].
    rewrite (chat_primary_path w creq Hto), (chat_primary_path w' creq Ho'),
            (analyze_primary_path w areq Hto), (analyze_primary_path w' areq Ho').
    by rewrite Ho, Hopenai.
  - rewrite (analyze_unconfigured_path w areq Hto),
            (analyze_unconfigured_path w' areq Ho').
    split; [|done].
    destruct (truthy (environ w' !! ANTHROPIC_API_KEY)) eqn:Ha'.
    + destruct Ha as [Ha | [Ha _]]; [|congruence].
      rewrite (chat_secondary_path w creq Hto Hta),
              (chat_secondary_path w' creq Ho' Ha').
      by rewrite Ha, Hanthropic.
    + by rewrite (chat_fallback_path w creq Hto Hta),
                 (chat_fallback_path w' creq Ho' Ha').
Qed.

Lemma falsy_credentials_are_interchangeable_witness :
  environ (Examples.world Edge.empty_primary) !! OPENAI_API_KEY = Some "" ∧
  environ (Examples.world Examples.anthropic_only) !! OPENAI_API_KEY = None ∧
  chat Examples.hi (Examples.world Edge.empty_primary) =
    chat Examples.hi (Examples.world Examples.anthropic_only) ∧
  calls (chat Examples.hi (Examples.world Edge.empty_primary)) =
    [Edge.hi_anthropic_call].
Proof.
  split; [reflexivity|]. split; [reflexivity|].
  split; [|reflexivity].
  apply (falsy_credentials_are_interchangeable
           (Examples.world Edge.empty_primary)
           (Examples.world Examples.anthropic_only)
           Examples.hi Examples.unknown_task);
    [reflexivity|reflexivity|right; split; reflexivity|left; reflexivity].
Defined.

(** ** Replies the response models cannot hold *)

(** X17.  When the primary provider answers a chat call with a reply that
    has a choice but reports no usage, reading the first count raises
    [AttributeError]: the handler's result is the [HTTPException] of
    status 500 with that error's message, whatever the content of the
    choice is, and no response without usage is returned.  analyze never
    reads the usage. *)
Theorem missing_usage_is_http_500
    (w : World) (request : ChatRequest.t) (key : option string)
    (args : OpenAI.create_args) (reply : OpenAI.ChatCompletion)
    (first : OpenAI.Content) (rest : list OpenAI.Content) :
  OpenAICall key args ∈ calls (chat request w) ->
  openai_create w key args = inr reply ->
  OpenAI.choices reply = first :: rest ->
  OpenAI.usage reply = None ->
  chat request w =
    ([OpenAICall key args],
     inl (mkHTTPException 500
            "'NoneType' object has no attribute 'prompt_tokens'")).
Proof.
  intros Hin Hreply Hchoices Husage.
  destruct (truthy (environ w !! OPENAI_API_KEY)) eqn:Ho.
  - rewrite (chat_primary_path w request Ho) in Hin |- *.
    cbn [calls fst] in Hin.
    apply list_elem_of_singleton in Hin. injection Hin as -> ->.
    by rewrite Hreply, Hchoices, Husage.
  - destruct (truthy (environ w !! ANTHROPIC_API_KEY)) eqn:Ha.
    + rewrite (chat_secondary_path w request Ho Ha) in Hin.
      by apply list_elem_of_singleton in Hin.
    + rewrite (chat_fallback_path w request Ho Ha) in Hin.
      by apply elem_of_nil in Hin.
Qed.

Lemma missing_usage_is_http_500_witness :
  Examples.hi_openai_call ∈
    calls (chat Examples.hi (Edge.replying Edge.no_usage Examples.openai_only)) ∧
  chat Examples.hi (Edge.replying Edge.no_usage Examples.openai_only) =
    ([Examples.hi_openai_call],
     inl (mkHTTPException 500
            "'NoneType' object has no attribute 'prompt_tokens'")) ∧
  outcome (analyze Examples.unknown_task
                   (Edge.replying Edge.no_usage Examples.openai_only)) =
    inr {| AnalyzeResponse.result := "first";
           AnalyzeResponse.task := "unknown" |}.
Proof.
  assert (Examples.hi_openai_call ∈
            calls (chat Examples.hi
                        (Edge.replying Edge.no_usage Examples.openai_only)))
    as Hin.
  { apply list_elem_of_singleton. reflexivity. }
  split; [exact Hin|]. split; [|reflexivity].
  exact (missing_usage_is_http_500
           (Edge.replying Edge.no_usage Examples.openai_only) Examples.hi _ _
           Edge.no_usage (OpenAI.Text "first") [] Hin eq_refl eq_refl eq_refl).
Defined.


